(** * OctoPrint MultiCam: settings migration, webcam descriptors, snapshot
      proxy and plugin registration

    A shallow embedding of [octoprint_multicam/__init__.py].  Python values
    are an inductive type, dictionaries are finite maps, exceptions are an
    error type, and the code that touches the plugin's settings store, the
    logger or the network runs in a small state-and-exception monad.

    The module contains an f-string (in [take_webcam_snapshot]), so it can
    only be loaded by Python 3.6 or later: the embedding follows Python 3
    semantics (ordering [None] against an integer raises [TypeError],
    [enumerate] yields tuples, [map] is evaluated in list order). *)

From stdpp Require Import gmap strings list pretty.
From Stdlib Require Import ZArith.

(** ** Python values and exceptions *)

(** The scalar values a settings field can hold (YAML/JSON scalars; floats
    are left out). *)
Inductive value :=
| VNone
| VBool (b : bool)
| VInt (n : Z)
| VStr (s : string).

#[global] Instance value_eq_dec : EqDecision value.
Proof. solve_decision. Defined.

(** Python truthiness. *)
Definition truthy (v : value) : bool :=
  match v with
  | VNone => false
  | VBool b => b
  | VInt n => negb (n =? 0)%Z
  | VStr s => negb (bool_decide (s = ""))
  end.

(** [a or b]: the first operand when it is truthy, otherwise the second. *)
Definition py_or (a b : value) : value := if truthy a then a else b.

(** [str(v)], as used by ["%s" % v] on a non-tuple operand. *)
Definition py_str (v : value) : string :=
  match v with
  | VNone => "None"
  | VBool true => "True"
  | VBool false => "False"
  | VInt n => pretty n
  | VStr s => s
  end.

Inductive exn :=
| TypeError
| AttributeError
| KeyError
| StopIteration
| WebcamNotAbleToTakeSnapshotException
| HTTPError (status : Z)
| RequestException.

#[global] Instance exn_eq_dec : EqDecision exn.
Proof. solve_decision. Defined.

Inductive result (A : Type) :=
| Ok (a : A)
| Raise (e : exn).

Arguments Ok {A} a.
Arguments Raise {A} e.

Definition rbind {A B} (r : result A) (k : A → result B) : result B :=
  match r with
  | Ok a => k a
  | Raise e => Raise e
  end.

Notation "'let?' x ':=' r 'in' k" := (rbind r (λ x, k))
  (at level 10, x name, r at level 100, k at level 200).

(** [list(map(f, items))]: elements are converted in order and the first
    exception ends the traversal. *)
Fixpoint map_result {A B} (f : A → result B) (items : list A) : result (list B) :=
  match items with
  | [] => Ok []
  | x :: rest =>
      let? y := f x in
      let? ys := map_result f rest in
      Ok (y :: ys)
  end.

(** [current < n] where [current] is an integer or [None]. *)
Definition py_lt (current : option Z) (n : Z) : result bool :=
  match current with
  | Some c => Ok (bool_decide (c < n)%Z)
  | None => Raise TypeError
  end.

(** [d[k]] on a dictionary. *)
Definition py_getitem {A} (d : gmap string A) (k : string) : result A :=
  match d !! k with
  | Some x => Ok x
  | None => Raise KeyError
  end.

(** ** The host's webcam schema

    [Webcam] and [WebcamCompatibility] belong to the host; they are taken as
    plain records with the fields that the constructor calls name. *)

Module WebcamCompatibility.
Record t := mk {
  stream : value;
  streamTimeout : Z;
  streamRatio : value;
  cacheBuster : bool;
  streamWebrtcIceServers : list string;
  snapshot : value;
  snapshotTimeout : Z;
  snapshotSslValidation : bool
}.
End WebcamCompatibility.

Module Webcam.
Record t := mk {
  name : string;
  displayName : value;
  flipH : value;
  flipV : value;
  rotate90 : value;
  snapshotDisplay : value;
  canSnapshot : bool;
  compat : WebcamCompatibility.t;
  extras : gmap string value
}.
End Webcam.

(** ** Objects, the plugin instance and the world *)

#[warnings="-register-all"]
Inductive pyobj :=
| OVal (v : value)
| ODict (d : gmap string value)
| OTuple (items : list pyobj)
| OList (items : list pyobj)
| OWebcam (w : Webcam.t)
| OCompat (c : WebcamCompatibility.t)
| OMethod (attr : string)
| OHost (attr : string).

(** The attributes [__init__] sets on the instance. *)
Record MultiCamPlugin := {
  streamTimeout : Z;
  snapshotTimeout : Z;
  cacheBuster : bool;
  snapshotSslValidation : bool;
  webRtcServers : list string
}.

Definition __init__ : MultiCamPlugin :=
  {| streamTimeout := 15;
     snapshotTimeout := 15;
     cacheBuster := true;
     snapshotSslValidation := true;
     webRtcServers := [] |}.

Inductive event :=
| LogDebug (msg : string)
| HttpGet (url : string) (timeout : Z) (verify : bool).

(** What the code can observe and change: the value stored under
    [multicam_profiles] in the plugin's settings, and the log and network
    effects issued so far (oldest first). *)
Record world := {
  multicam_profiles : list (gmap string value);
  events : list event
}.

Definition Py (A : Type) : Type := world → result A * world.

Definition ret {A} (a : A) : Py A := λ w, (Ok a, w).

Definition lift {A} (r : result A) : Py A := λ w, (r, w).

Definition bind {A B} (m : Py A) (k : A → Py B) : Py B :=
  λ w, match m w with
       | (Ok a, w') => k a w'
       | (Raise e, w') => (Raise e, w')
       end.

Notation "'let!' x ':=' m 'in' k" := (bind m (λ x, k))
  (at level 10, x name, m at level 100, k at level 200).

Definition emit (e : event) : Py unit :=
  λ w, (Ok tt, {| multicam_profiles := multicam_profiles w;
                  events := events w ++ [e] |}).

(** [self._logger.debug(msg)] *)
Definition logger_debug (msg : string) : Py unit := emit (LogDebug msg).

(** [self._settings.get(['multicam_profiles'])] *)
Definition settings_get_profiles : Py (list (gmap string value)) :=
  λ w, (Ok (multicam_profiles w), w).

(** [self._settings.set(['multicam_profiles'], profiles)] *)
Definition settings_set_profiles (profiles : list (gmap string value)) : Py unit :=
  λ w, (Ok tt, {| multicam_profiles := profiles; events := events w |}).

Record response := {
  status_code : Z;
  content_chunks : list (list Byte.byte)
}.

(** [r.raise_for_status()] *)
Definition raise_for_status (r : response) : result unit :=
  if bool_decide (400 ≤ status_code r < 600)%Z
  then Raise (HTTPError (status_code r))
  else Ok tt.

Definition get_settings_version : Z := 3.

Definition __plugin_name__ : string := "MultiCam".

(** The names the class body of [MultiCamPlugin] defines. *)
Definition class_attrs : list string :=
  [ "__init__"; "get_assets"; "on_after_startup"; "get_settings_version";
    "on_settings_migrate"; "get_settings_defaults"; "get_sorting_key";
    "get_template_configs"; "get_webcam_configurations";
    "take_webcam_snapshot"; "get_version"; "get_update_information" ].

(** [enumerate(items)] *)
Definition enumerate (items : list pyobj) : list pyobj :=
  imap (λ i x, OTuple [OVal (VInt (Z.of_nat i)); x]) items.

(** [o.get(k, dflt)]: only dictionaries have the method. *)
Definition dict_get (o : pyobj) (k : string) (dflt : value) : result value :=
  match o with
  | ODict d => Ok (default dflt (d !! k))
  | _ => Raise AttributeError
  end.

(** The one-character strings that iterating a string yields. *)
Fixpoint string_chars (s : string) : list pyobj :=
  match s with
  | EmptyString => []
  | String c rest => OVal (VStr (String c EmptyString)) :: string_chars rest
  end.

(** [iter(o)] *)
Definition py_iter (o : pyobj) : result (list pyobj) :=
  match o with
  | OTuple items | OList items => Ok items
  | ODict d => Ok ((λ kv, OVal (VStr kv.1)) <$> map_to_list d)
  | OVal (VStr s) => Ok (string_chars s)
  | OVal _ | OWebcam _ | OCompat _ | OMethod _ | OHost _ => Raise TypeError
  end.

(** [o.attr] on the objects that are not the plugin instance. *)
Definition py_getattr (o : pyobj) (attr : string) : result pyobj :=
  match o with
  | OWebcam w =>
      if bool_decide (attr = "name") then Ok (OVal (VStr (Webcam.name w)))
      else if bool_decide (attr = "displayName") then Ok (OVal (Webcam.displayName w))
      else if bool_decide (attr = "flipH") then Ok (OVal (Webcam.flipH w))
      else if bool_decide (attr = "flipV") then Ok (OVal (Webcam.flipV w))
      else if bool_decide (attr = "rotate90") then Ok (OVal (Webcam.rotate90 w))
      else if bool_decide (attr = "snapshotDisplay") then Ok (OVal (Webcam.snapshotDisplay w))
      else if bool_decide (attr = "canSnapshot") then Ok (OVal (VBool (Webcam.canSnapshot w)))
      else if bool_decide (attr = "compat") then Ok (OCompat (Webcam.compat w))
      else if bool_decide (attr = "extras") then Ok (ODict (Webcam.extras w))
      else Raise AttributeError
  | _ => Raise AttributeError
  end.

(** [o == s] for a string [s]. *)
Definition py_eq_str (o : pyobj) (s : string) : bool :=
  match o with
  | OVal (VStr t) => bool_decide (t = s)
  | _ => false
  end.

(** [o is None] *)
Definition is_None (o : pyobj) : bool :=
  match o with
  | OVal VNone => true
  | _ => false
  end.

(** [str(o)] for the objects an f-string or a URL argument can receive. *)
Definition py_str_obj (o : pyobj) : string :=
  match o with
  | OVal v => py_str v
  | _ => "<object>"
  end.

(** [next(webcam for webcam in items if webcam.name == name)] *)
Fixpoint next_matching (name : string) (items : list pyobj) : result pyobj :=
  match items with
  | [] => Raise StopIteration
  | webcam :: rest =>
      let? n := py_getattr webcam "name" in
      if py_eq_str n name then Ok webcam else next_matching name rest
  end.

(** ** The methods of [MultiCamPlugin] *)

Section Plugin.

(** [octoprint.settings.settings().get(["webcam", key])]: the host's legacy
    single-camera settings, which this code only reads. *)
Variable webcam_setting : string → value.

(** The attribute names the host's mixin classes and plugin loader provide
    on the instance (such as [_logger], [_settings], [_plugin_version]). *)
Variable host_attrs : list string.

(** [requests.get(url, stream=True, timeout=..., verify=...)] *)
Variable requests_get : string → Z → bool → result response.

(** [self.attr] *)
Definition self_getattr (self : MultiCamPlugin) (attr : string) : result pyobj :=
  if bool_decide (attr = "streamTimeout") then Ok (OVal (VInt (streamTimeout self)))
  else if bool_decide (attr = "snapshotTimeout") then Ok (OVal (VInt (snapshotTimeout self)))
  else if bool_decide (attr = "cacheBuster") then Ok (OVal (VBool (cacheBuster self)))
  else if bool_decide (attr = "snapshotSslValidation")
       then Ok (OVal (VBool (snapshotSslValidation self)))
  else if bool_decide (attr = "webRtcServers")
       then Ok (OList ((λ s, OVal (VStr s)) <$> webRtcServers self))
  else if bool_decide (attr ∈ class_attrs) then Ok (OMethod attr)
  else if bool_decide (attr ∈ host_attrs) then Ok (OHost attr)
  else Raise AttributeError.

(** The body of the "Migrate to 2" loop. *)
Definition migrate_to_2 (profile : gmap string value) : gmap string value :=
  <["rotate90" := webcam_setting "rotate90"]>
    (<["flipV" := webcam_setting "flipV"]>
      (<["flipH" := webcam_setting "flipH"]>
        (<["snapshot" := webcam_setting "snapshot"]> profile))).

(** The body of the "Migrate to 3" loop. *)
Definition migrate_to_3 (profile : gmap string value) : gmap string value :=
  <["streamRatio" := webcam_setting "streamRatio"]> profile.

Definition get_settings_defaults : gmap string (list (gmap string value)) :=
  {[ "multicam_profiles" :=
       [ {[ "name" := VStr "Default";
            "URL" := webcam_setting "stream";
            "snapshot" := webcam_setting "snapshot";
            "streamRatio" := webcam_setting "streamRatio";
            "flipH" := webcam_setting "flipH";
            "flipV" := webcam_setting "flipV";
            "rotate90" := webcam_setting "rotate90";
            "isButtonEnabled" := VStr "true" ]} ] ]}.

(** [on_settings_migrate(self, target, current=None)].  The dictionaries of
    the list read from the store are updated in place and the list is then
    written back; no exception can occur between the first update and the
    write, so the list is modelled as a value. *)
Definition on_settings_migrate (target : Z) (current : option Z) : Py unit :=
  let! stale := match current with
                | None => ret true
                | Some _ => lift (py_lt current get_settings_version)
                end in
  if (stale : bool) then
    let! _ := logger_debug "Settings Migration Needed! Resetting to defaults!" in
    let! profiles := settings_get_profiles in
    let! before_2 := lift (py_lt current 2) in
    let profiles : list (gmap string value) :=
      if (before_2 : bool) then migrate_to_2 <$> profiles else profiles in
    let! before_3 := lift (py_lt current 3) in
    let profiles : list (gmap string value) :=
      if (before_3 : bool) then migrate_to_3 <$> profiles else profiles in
    if bool_decide (get_settings_version = 3%Z)
    then settings_set_profiles profiles
    else
      let! defaults := lift (py_getitem get_settings_defaults "multicam_profiles") in
      settings_set_profiles defaults
  else ret tt.

(** The inner function [profile_to_webcam(profile)]. *)
Definition profile_to_webcam (self : MultiCamPlugin) (profile : pyobj) : result Webcam.t :=
  let? flipH := dict_get profile "flipH" VNone in
  let flipH := py_or flipH (VBool false) in
  let? flipV := dict_get profile "flipV" VNone in
  let flipV := py_or flipV (VBool false) in
  let? rotate90 := dict_get profile "rotate90" VNone in
  let rotate90 := py_or rotate90 (VBool false) in
  let? snapshot := dict_get profile "snapshot" VNone in
  let? stream := dict_get profile "URL" VNone in
  let stream := py_or stream (VStr "") in
  let? streamRatio := dict_get profile "streamRatio" VNone in
  let streamRatio := py_or streamRatio (VStr "4:3") in
  let canSnapshot :=
    negb (bool_decide (snapshot = VStr "")) && negb (bool_decide (snapshot = VNone)) in
  let? name := dict_get profile "name" VNone in
  let name := py_or name (VStr "default") in
  Ok (Webcam.mk
        ("multicam/" +:+ py_str name)
        name
        flipH
        flipV
        rotate90
        snapshot
        canSnapshot
        (WebcamCompatibility.mk
           stream
           (streamTimeout self)
           streamRatio
           (cacheBuster self)
           (webRtcServers self)
           snapshot
           (snapshotTimeout self)
           (snapshotSslValidation self))
        {[ "stream" := stream;
           "streamTimeout" := VInt (streamTimeout self);
           "streamRatio" := streamRatio;
           "cacheBuster" := VBool (cacheBuster self) ]}).

(** [get_webcam_configurations(self)] *)
Definition get_webcam_configurations (self : MultiCamPlugin) : Py (list Webcam.t) :=
  let! stored := settings_get_profiles in
  let profiles := enumerate (ODict <$> stored) in
  lift (map_result (profile_to_webcam self) profiles).

(** [take_webcam_snapshot(self, name)].  The generator expression iterates
    over the attribute [self.get_webcam_configurations] itself: the method
    is looked up but not called. *)
Definition take_webcam_snapshot (self : MultiCamPlugin) (name : string)
  : Py (list (list Byte.byte)) :=
  let! configurations := lift (self_getattr self "get_webcam_configurations") in
  let! webcams := lift (py_iter configurations) in
  let! webcam := lift (next_matching name webcams) in
  let! _ := if is_None webcam
            then let! _ := lift (self_getattr self "_webcam_name") in
                 lift (Raise WebcamNotAbleToTakeSnapshotException)
            else ret tt in
  let! snapshot_url := lift (py_getattr webcam "snapshot_url") in
  let can_snapshot :=
    negb (is_None snapshot_url)
    && negb (py_eq_str snapshot_url "http://")
    && negb (py_eq_str snapshot_url "") in
  let! _ := if can_snapshot
            then ret tt
            else let! _ := lift (self_getattr self "_webcam_name") in
                 lift (Raise WebcamNotAbleToTakeSnapshotException) in
  let! _ := lift (self_getattr self "_capture_mutex") in
  let! _ := logger_debug ("Capturing image from " +:+ py_str_obj snapshot_url) in
  let! _ := emit (HttpGet (py_str_obj snapshot_url) (snapshotTimeout self)
                    (snapshotSslValidation self)) in
  let! r := lift (requests_get (py_str_obj snapshot_url) (snapshotTimeout self)
                    (snapshotSslValidation self)) in
  let! _ := lift (raise_for_status r) in
  ret (content_chunks r).

(** ** Module-level registration *)

Record globals := {
  __plugin_implementation__ : option MultiCamPlugin;
  __plugin_helpers__ : option (gmap string pyobj);
  __plugin_hooks__ : option (gmap string pyobj)
}.

(** [__plugin_load__()]: each global is assigned as soon as its right-hand
    side has been evaluated. *)
Definition __plugin_load__ (g : globals) : result unit * globals :=
  let self := __init__ in
  let g1 := {| __plugin_implementation__ := Some self;
               __plugin_helpers__ := __plugin_helpers__ g;
               __plugin_hooks__ := __plugin_hooks__ g |} in
  match self_getattr self "get_webcam_profiles" with
  | Raise e => (Raise e, g1)
  | Ok helper =>
      let g2 := {| __plugin_implementation__ := Some self;
                   __plugin_helpers__ := Some {[ "get_webcam_profiles" := helper ]};
                   __plugin_hooks__ := __plugin_hooks__ g |} in
      match self_getattr self "get_update_information" with
      | Raise e => (Raise e, g2)
      | Ok hook =>
          (Ok tt,
           {| __plugin_implementation__ := Some self;
              __plugin_helpers__ := Some {[ "get_webcam_profiles" := helper ]};
              __plugin_hooks__ :=
                Some {[ "octoprint.plugin.softwareupdate.check_config" := hook ]} |})
      end
  end.

End Plugin.

(** ** Template manifest *)

(** The inner function [webcam_to_template(webcam)]: the same panel entry
    for every descriptor. *)
Definition webcam_to_template (webcam : Webcam.t) : gmap string value :=
  {[ "type" := VStr "webcam";
     "template" := VStr "multicam.jinja2";
     "custom_bindings" := VBool true ]}.

(** [get_template_configs(self)]: the descriptors are computed first, then
    the settings panel and one panel per descriptor are listed. *)
Definition get_template_configs (self : MultiCamPlugin) : Py (list (gmap string value)) :=
  let! webcams := get_webcam_configurations self in
  let settings_templates : list (gmap string value) :=
    [ {[ "type" := VStr "settings";
         "template" := VStr "multicam_settings.jinja2";
         "custom_bindings" := VBool true ]} ] in
  let webcam_templates := webcam_to_template <$> webcams in
  ret (settings_templates ++ webcam_templates).

(** ** Properties of the settings migration *)

Section MigrationFacts.

Variable webcam_setting : string → value.

(** The five fields of a profile after both migration steps, and the other
    fields, which the steps leave alone. *)
Lemma migrate_to_3_to_2_fields (profile : gmap string value) :
  let migrated := migrate_to_3 webcam_setting (migrate_to_2 webcam_setting profile) in
  migrated !! "snapshot" = Some (webcam_setting "snapshot")
  ∧ migrated !! "flipH" = Some (webcam_setting "flipH")
  ∧ migrated !! "flipV" = Some (webcam_setting "flipV")
  ∧ migrated !! "rotate90" = Some (webcam_setting "rotate90")
  ∧ migrated !! "streamRatio" = Some (webcam_setting "streamRatio")
  ∧ ∀ k, k ∉ ["snapshot"; "flipH"; "flipV"; "rotate90"; "streamRatio"] →
         migrated !! k = profile !! k.
Proof.
  unfold migrate_to_3, migrate_to_2; cbn zeta.
  repeat split; try by simplify_map_eq.
  intros k Hk.
  repeat (rewrite lookup_insert_ne; [| intros <-; apply Hk; set_solver]).
  reflexivity.
Qed.

(** Started from version 1, the migration completes, logs once, and stores
    the list in which every profile went through both steps. *)
Lemma on_settings_migrate_from_1 (target : Z) (w : world) :
  on_settings_migrate webcam_setting target (Some 1%Z) w =
    (Ok tt,
     {| multicam_profiles :=
          (λ p, migrate_to_3 webcam_setting (migrate_to_2 webcam_setting p))
            <$> multicam_profiles w;
        events :=
          events w ++ [LogDebug "Settings Migration Needed! Resetting to defaults!"] |}).
Proof.
  unfold on_settings_migrate, bind, lift, ret, logger_debug, emit,
    settings_get_profiles, settings_set_profiles, py_lt, get_settings_version.
  repeat case_bool_decide; try lia.
  cbn; by rewrite <- list_fmap_compose.
Qed.

(** Version 1 with N stored profiles: N profiles are stored afterwards and
    each carries the legacy values in the five migrated fields. *)
Lemma on_settings_migrate_from_1_profiles (target : Z) (w : world) :
  let w' := (on_settings_migrate webcam_setting target (Some 1%Z) w).2 in
  length (multicam_profiles w') = length (multicam_profiles w)
  ∧ ∀ i p', multicam_profiles w' !! i = Some p' →
      p' !! "snapshot" = Some (webcam_setting "snapshot")
      ∧ p' !! "flipH" = Some (webcam_setting "flipH")
      ∧ p' !! "flipV" = Some (webcam_setting "flipV")
      ∧ p' !! "rotate90" = Some (webcam_setting "rotate90")
      ∧ p' !! "streamRatio" = Some (webcam_setting "streamRatio").
Proof.
  rewrite on_settings_migrate_from_1; cbn.
  split; [by rewrite length_fmap |].
  intros i p' Hi.
  apply list_lookup_fmap_Some in Hi as (p & -> & _).
  destruct (migrate_to_3_to_2_fields p) as (? & ? & ? & ? & ? & _).
  repeat split; assumption.
Qed.

(** C1 (at the input where the code departs from it): with [current] equal
    to [None] the outer guard is entered, the debug line is logged, and the
    comparison [current < 2] raises [TypeError]; the stored profile list is
    left as it was and nothing is persisted. *)
Theorem on_settings_migrate_current_None_raises (target : Z) (w : world) :
  on_settings_migrate webcam_setting target None w =
    (Raise TypeError,
     {| multicam_profiles := multicam_profiles w;
        events :=
          events w ++ [LogDebug "Settings Migration Needed! Resetting to defaults!"] |}).
Proof. reflexivity. Qed.

(** C7: when [current] is already 3 the migration does nothing: the result
    is [Ok] on the unchanged world (no field is written, nothing is logged),
    and running it twice is the same as not running it. *)
Theorem on_settings_migrate_at_3_noop (target : Z) (w : world) :
  on_settings_migrate webcam_setting target (Some 3%Z) w = (Ok tt, w)
  ∧ (let! _ := on_settings_migrate webcam_setting target (Some 3%Z) in
     on_settings_migrate webcam_setting target (Some 3%Z)) w = ret tt w.
Proof. split; reflexivity. Qed.

(** C10: whenever the outer guard holds and the migration returns normally,
    the test that selects the branch is true (the version constant is the
    literal 3), [current] was an integer, and the list stored afterwards is
    the input list with the applicable steps applied to every profile; the
    defaults are never what is written. *)
Theorem on_settings_migrate_persists_mutated
    (target : Z) (current : option Z) (w w' : world) :
  (current = None ∨ ∃ c, current = Some c ∧ (c < get_settings_version)%Z) →
  on_settings_migrate webcam_setting target current w = (Ok tt, w') →
  bool_decide (get_settings_version = 3%Z) = true
  ∧ ∃ c, current = Some c
      ∧ multicam_profiles w' =
          (λ p, migrate_to_3 webcam_setting
                  (if bool_decide (c < 2)%Z then migrate_to_2 webcam_setting p else p))
            <$> multicam_profiles w.
Proof.
  intros Hguard Hrun.
  split; [reflexivity |].
  destruct current as [c |]; [| discriminate Hrun].
  exists c; split; [reflexivity |].
  destruct Hguard as [? | (c' & [= <-] & Hlt)]; [discriminate |].
  unfold on_settings_migrate, bind, lift, ret, logger_debug, emit,
    settings_get_profiles, settings_set_profiles, py_lt in Hrun.
  unfold get_settings_version in *.
  rewrite (bool_decide_eq_true_2 _ Hlt) in Hrun; cbn in Hrun.
  injection Hrun as <-; cbn.
  case_bool_decide; [| reflexivity].
  by rewrite <- list_fmap_compose.
Qed.

End MigrationFacts.

(** A run of the migration from version 1 on one stored profile. *)
Lemma on_settings_migrate_persists_mutated_witness :
  let legacy : string → value := λ key, VStr ("legacy " +:+ key) in
  let w := {| multicam_profiles := [ {[ "name" := VStr "Cam1" ]} ]; events := [] |} in
  let w' := (on_settings_migrate legacy 3 (Some 1%Z) w).2 in
  (Some 1%Z = None ∨ ∃ c, Some 1%Z = Some c ∧ (c < get_settings_version)%Z)
  ∧ on_settings_migrate legacy 3 (Some 1%Z) w = (Ok tt, w')
  ∧ bool_decide (get_settings_version = 3%Z) = true
  ∧ ∃ c, Some 1%Z = Some c
      ∧ multicam_profiles w' =
          (λ p, migrate_to_3 legacy
                  (if bool_decide (c < 2)%Z then migrate_to_2 legacy p else p))
            <$> multicam_profiles w.
Proof.
  intros legacy w w'.
  assert (Hguard : Some 1%Z = None ∨ ∃ c, Some 1%Z = Some c ∧ (c < get_settings_version)%Z).
  { right; exists 1%Z; split; [reflexivity | unfold get_settings_version; lia]. }
  assert (Hrun : on_settings_migrate legacy 3 (Some 1%Z) w = (Ok tt, w')).
  { reflexivity. }
  split; [exact Hguard |].
  split; [exact Hrun |].
  exact (on_settings_migrate_persists_mutated legacy 3 (Some 1%Z) w w' Hguard Hrun).
Defined.

(** ** Properties of the descriptor translator *)

(** Applied to a dictionary, [profile_to_webcam] always returns a descriptor
    (no lookup can fail), with each field defaulted as the code writes it. *)
Lemma profile_to_webcam_dict (self : MultiCamPlugin) (d : gmap string value) :
  let field k := default VNone (d !! k) in
  let name := py_or (field "name") (VStr "default") in
  let stream := py_or (field "URL") (VStr "") in
  let streamRatio := py_or (field "streamRatio") (VStr "4:3") in
  profile_to_webcam self (ODict d) =
    Ok (Webcam.mk
          ("multicam/" +:+ py_str name)
          name
          (py_or (field "flipH") (VBool false))
          (py_or (field "flipV") (VBool false))
          (py_or (field "rotate90") (VBool false))
          (field "snapshot")
          (negb (bool_decide (field "snapshot" = VStr ""))
           && negb (bool_decide (field "snapshot" = VNone)))
          (WebcamCompatibility.mk
             stream (streamTimeout self) streamRatio (cacheBuster self)
             (webRtcServers self) (field "snapshot") (snapshotTimeout self)
             (snapshotSslValidation self))
          {[ "stream" := stream;
             "streamTimeout" := VInt (streamTimeout self);
             "streamRatio" := streamRatio;
             "cacheBuster" := VBool (cacheBuster self) ]}).
Proof. reflexivity. Qed.

(** A field that is missing or falsy is replaced by its default. *)
Lemma py_or_default (d : gmap string value) (k : string) (dflt : value) :
  (d !! k = None ∨ ∃ v, d !! k = Some v ∧ truthy v = false) →
  py_or (default VNone (d !! k)) dflt = dflt.
Proof.
  unfold py_or.
  intros [-> | (v & -> & Hv)]; cbn; [reflexivity | by rewrite Hv].
Qed.

(** Applied to anything that is not a dictionary, [profile_to_webcam] fails
    at its first statement. *)
Lemma profile_to_webcam_tuple (self : MultiCamPlugin) (items : list pyobj) :
  profile_to_webcam self (OTuple items) = Raise AttributeError.
Proof. reflexivity. Qed.

(** C2 (at the input where the code departs from it): for the stored list
    holding the single profile [{name: "Cam1", URL: "http://x/stream",
    snapshot: "http://x/snap.jpg"}] the translator raises [AttributeError]
    and returns no descriptor, because [enumerate] hands [profile_to_webcam]
    the pair [(0, profile)]; on the profile itself the inner function does
    produce the descriptor the claim describes. *)
Theorem get_webcam_configurations_Cam1_raises :
  let cam1 : gmap string value :=
    {[ "name" := VStr "Cam1";
       "URL" := VStr "http://x/stream";
       "snapshot" := VStr "http://x/snap.jpg" ]} in
  let w := {| multicam_profiles := [cam1]; events := [] |} in
  get_webcam_configurations __init__ w = (Raise AttributeError, w)
  ∧ ∃ cam, profile_to_webcam __init__ (ODict cam1) = Ok cam
      ∧ Webcam.name cam = "multicam/Cam1"
      ∧ Webcam.displayName cam = VStr "Cam1"
      ∧ Webcam.canSnapshot cam = true
      ∧ WebcamCompatibility.streamRatio (Webcam.compat cam) = VStr "4:3"
      ∧ Webcam.flipH cam = VBool false.
Proof.
  cbn zeta; split; [reflexivity |].
  eexists; split; [reflexivity |].
  repeat split.
Qed.

(** C3 (at the inputs where the code departs from it): on every stored list
    with at least one profile the translator raises [AttributeError], leaving
    the world as it was; only the empty list is translated. *)
Theorem get_webcam_configurations_nonempty_raises
    (self : MultiCamPlugin) (p : gmap string value) (ps : list (gmap string value))
    (evs : list event) :
  let w := {| multicam_profiles := p :: ps; events := evs |} in
  get_webcam_configurations self w = (Raise AttributeError, w)
  ∧ get_webcam_configurations self {| multicam_profiles := []; events := evs |}
    = (Ok [], {| multicam_profiles := []; events := evs |}).
Proof. split; reflexivity. Qed.

(** The inner function on its own: handed a profile dictionary it returns a
    descriptor whose [canSnapshot] is true exactly when the [snapshot] key
    is present with a value that is neither [None] nor the empty string.
    The translator never hands it a dictionary (see the next theorem). *)
Lemma profile_to_webcam_canSnapshot_iff
    (self : MultiCamPlugin) (d : gmap string value) :
  ∃ cam, profile_to_webcam self (ODict d) = Ok cam
    ∧ (Webcam.canSnapshot cam = true
       ↔ ∃ v, d !! "snapshot" = Some v ∧ v ≠ VNone ∧ v ≠ VStr "").
Proof.
  eexists; split; [apply profile_to_webcam_dict |]; cbn.
  destruct (d !! "snapshot") as [v |] eqn:Hd; cbn.
  - rewrite andb_true_iff, !negb_true_iff, !bool_decide_eq_false.
    split.
    + intros [? ?]; exists v; auto.
    + intros (v' & [= <-] & ? & ?); auto.
  - split; [discriminate |].
    intros (v & ? & _); discriminate.
Qed.

(** C4 (at the inputs where the code departs from it): for a stored profile
    whose [snapshot] field holds any value, a snapshot URL included, the
    translator derives no [canSnapshot] at all: [enumerate] pairs the
    profile with its index, [profile_to_webcam] raises [AttributeError] on
    that pair at its first lookup, before the [snapshot] field is read, and
    the translator returns no descriptor, with or without further profiles
    behind it. *)
Theorem get_webcam_configurations_derives_no_canSnapshot
    (self : MultiCamPlugin) (d : gmap string value) (snapshot : value)
    (ps : list (gmap string value)) (evs : list event) :
  let profile := <["snapshot" := snapshot]> d in
  let w := {| multicam_profiles := profile :: ps; events := evs |} in
  head (enumerate (ODict <$> multicam_profiles w))
    = Some (OTuple [OVal (VInt 0); ODict profile])
  ∧ profile_to_webcam self (OTuple [OVal (VInt 0); ODict profile])
    = Raise AttributeError
  ∧ get_webcam_configurations self w = (Raise AttributeError, w)
  ∧ ∀ cams, (get_webcam_configurations self w).1 ≠ Ok cams.
Proof.
  cbn zeta. repeat split. intros cams. discriminate.
Qed.

(** ** Properties of the snapshot proxy *)

Section SnapshotFacts.

Variable host_attrs : list string.
Variable requests_get : string → Z → bool → result response.

(** The attribute the generator expression iterates over is the method
    object itself, which cannot be iterated. *)
Lemma get_webcam_configurations_attr_not_iterable (self : MultiCamPlugin) :
  (let? configurations := self_getattr host_attrs self "get_webcam_configurations" in
   py_iter configurations) = Raise TypeError.
Proof. reflexivity. Qed.

Lemma py_getattr_webcam_name (cam : Webcam.t) :
  py_getattr (OWebcam cam) "name" = Ok (OVal (VStr (Webcam.name cam))).
Proof. reflexivity. Qed.

(** Had the method been called, an unknown name would end the generator:
    [next] raises [StopIteration] and never returns [None]. *)
Lemma next_matching_no_match (name : string) (webcams : list Webcam.t) :
  Forall (λ cam, Webcam.name cam ≠ name) webcams →
  next_matching name (OWebcam <$> webcams) = Raise StopIteration.
Proof.
  induction 1 as [| cam rest Hne _ IH]; [reflexivity |].
  change (next_matching name (OWebcam <$> cam :: rest)) with
    (let? n := py_getattr (OWebcam cam) "name" in
     if py_eq_str n name then Ok (OWebcam cam)
     else next_matching name (OWebcam <$> rest)).
  rewrite py_getattr_webcam_name; unfold rbind, py_eq_str.
  rewrite bool_decide_eq_false_2 by assumption. exact IH.
Qed.

(** C5 (at the inputs where the code departs from it): for every requested
    name, matching or not, and every stored profile list, the snapshot fetch
    raises [TypeError] at its first statement; the world is unchanged, so no
    HTTP request is issued, but the exception is not
    [WebcamNotAbleToTakeSnapshotException]. *)
Theorem take_webcam_snapshot_any_name_TypeError
    (self : MultiCamPlugin) (name : string) (w : world) :
  take_webcam_snapshot host_attrs requests_get self name w = (Raise TypeError, w).
Proof. reflexivity. Qed.

(** C6 (at the inputs where the code departs from it): with one stored
    profile named [Cam1] whose snapshot URL is [None], the empty string or
    ["http://"], asking for ["multicam/Cam1"] raises [TypeError] rather than
    [WebcamNotAbleToTakeSnapshotException]; no HTTP request is logged. *)
Theorem take_webcam_snapshot_unset_url_TypeError (url : value) (evs : list event) :
  let w := {| multicam_profiles := [ {[ "name" := VStr "Cam1"; "snapshot" := url ]} ];
             events := evs |} in
  url ∈ [VNone; VStr ""; VStr "http://"] →
  let run := take_webcam_snapshot host_attrs requests_get __init__ "multicam/Cam1" w in
  run.1 = Raise TypeError
  ∧ run.1 ≠ Raise WebcamNotAbleToTakeSnapshotException
  ∧ events run.2 = evs.
Proof. intros w _ run. repeat split. discriminate. Qed.

End SnapshotFacts.

(** The placeholder URL ["http://"] on a profile named [Cam1]. *)
Lemma take_webcam_snapshot_unset_url_TypeError_witness :
  let host_attrs := ["_logger"; "_settings"] in
  let requests_get : string → Z → bool → result response :=
    λ _ _ _, Ok {| status_code := 200; content_chunks := [] |} in
  let w := {| multicam_profiles :=
                [ {[ "name" := VStr "Cam1"; "snapshot" := VStr "http://" ]} ];
              events := [] |} in
  let run := take_webcam_snapshot host_attrs requests_get __init__ "multicam/Cam1" w in
  VStr "http://" ∈ [VNone; VStr ""; VStr "http://"]
  ∧ run.1 = Raise TypeError
  ∧ run.1 ≠ Raise WebcamNotAbleToTakeSnapshotException
  ∧ events run.2 = [].
Proof.
  intros host_attrs requests_get w run.
  assert (Hurl : VStr "http://" ∈ [VNone; VStr ""; VStr "http://"]).
  { apply list_elem_of_further, list_elem_of_further, list_elem_of_here. }
  split; [exact Hurl |].
  exact (take_webcam_snapshot_unset_url_TypeError
           host_attrs requests_get (VStr "http://") [] Hurl).
Defined.

(** ** Properties of the registration and of the default settings *)

(** No attribute named [get_webcam_profiles] is defined by the class body or
    set by [__init__]. *)
Lemma self_getattr_get_webcam_profiles (host_attrs : list string) (self : MultiCamPlugin) :
  "get_webcam_profiles" ∉ host_attrs →
  self_getattr host_attrs self "get_webcam_profiles" = Raise AttributeError.
Proof.
  intros Hhost. unfold self_getattr.
  rewrite (bool_decide_eq_false_2 _ Hhost).
  reflexivity.
Qed.

(** C8 (at the input where the code departs from it): unless the host
    supplies an attribute [get_webcam_profiles], the load entry point raises
    [AttributeError] while building the helper table: the instance has been
    stored, the helper table and the hook table have not been assigned. *)
Theorem plugin_load_raises_AttributeError (host_attrs : list string) (g : globals) :
  "get_webcam_profiles" ∉ host_attrs →
  __plugin_load__ host_attrs g =
    (Raise AttributeError,
     {| __plugin_implementation__ := Some __init__;
        __plugin_helpers__ := __plugin_helpers__ g;
        __plugin_hooks__ := __plugin_hooks__ g |}).
Proof.
  intros Hhost. unfold __plugin_load__.
  by rewrite (self_getattr_get_webcam_profiles _ _ Hhost).
Qed.

(** Loading into fresh globals, with the attributes the host injects. *)
Lemma plugin_load_raises_AttributeError_witness :
  let host_attrs :=
    ["_identifier"; "_plugin_name"; "_plugin_version"; "_basefolder";
     "_logger"; "_settings"] in
  let g := {| __plugin_implementation__ := None;
              __plugin_helpers__ := None;
              __plugin_hooks__ := None |} in
  ("get_webcam_profiles" ∉ host_attrs)
  ∧ __plugin_load__ host_attrs g =
      (Raise AttributeError,
       {| __plugin_implementation__ := Some __init__;
          __plugin_helpers__ := None;
          __plugin_hooks__ := None |}).
Proof.
  intros host_attrs g.
  assert (Hhost : "get_webcam_profiles" ∉ host_attrs).
  { apply not_elem_of_cons; split; [discriminate |].
    apply not_elem_of_cons; split; [discriminate |].
    apply not_elem_of_cons; split; [discriminate |].
    apply not_elem_of_cons; split; [discriminate |].
    apply not_elem_of_cons; split; [discriminate |].
    apply not_elem_of_cons; split; [discriminate |].
    apply not_elem_of_nil. }
  split; [exact Hhost |].
  exact (plugin_load_raises_AttributeError host_attrs g Hhost).
Defined.

(** Had the helper lookup succeeded, the hook table would map the update
    check hook to the plugin's own [get_update_information]. *)
Lemma self_getattr_get_update_information (host_attrs : list string) (self : MultiCamPlugin) :
  self_getattr host_attrs self "get_update_information"
  = Ok (OMethod "get_update_information").
Proof. reflexivity. Qed.

(** C9 (as stated): with every legacy setting unset, the default profile's
    [isButtonEnabled] is not the boolean [True]. *)
Lemma get_settings_defaults_button_not_boolean :
  let legacy : string → value := λ _, VNone in
  ¬ ∃ p, get_settings_defaults legacy !! "multicam_profiles" = Some [p]
       ∧ p !! "name" = Some (VStr "Default")
       ∧ p !! "URL" = Some (legacy "stream")
       ∧ p !! "snapshot" = Some (legacy "snapshot")
       ∧ p !! "streamRatio" = Some (legacy "streamRatio")
       ∧ p !! "flipH" = Some (legacy "flipH")
       ∧ p !! "flipV" = Some (legacy "flipV")
       ∧ p !! "rotate90" = Some (legacy "rotate90")
       ∧ p !! "isButtonEnabled" = Some (VBool true).
Proof.
  intros legacy (p & Hp & _ & _ & _ & _ & _ & _ & _ & Hbutton).
  unfold get_settings_defaults in Hp.
  rewrite lookup_singleton_eq in Hp.
  injection Hp as <-.
  simplify_map_eq.
Qed.

(** C9 (amended): the defaults hold exactly one profile; its name is
    ["Default"], its [URL], [snapshot], [streamRatio], [flipH], [flipV] and
    [rotate90] are the host's legacy values, its [isButtonEnabled] is the
    string ["true"], and it has no other key. *)
Theorem get_settings_defaults_single_profile (webcam_setting : string → value) :
  ∃ p, get_settings_defaults webcam_setting !! "multicam_profiles" = Some [p]
     ∧ p !! "name" = Some (VStr "Default")
     ∧ p !! "URL" = Some (webcam_setting "stream")
     ∧ p !! "snapshot" = Some (webcam_setting "snapshot")
     ∧ p !! "streamRatio" = Some (webcam_setting "streamRatio")
     ∧ p !! "flipH" = Some (webcam_setting "flipH")
     ∧ p !! "flipV" = Some (webcam_setting "flipV")
     ∧ p !! "rotate90" = Some (webcam_setting "rotate90")
     ∧ p !! "isButtonEnabled" = Some (VStr "true")
     ∧ ∀ k, is_Some (p !! k) →
         k ∈ ["name"; "URL"; "snapshot"; "streamRatio"; "flipH"; "flipV";
              "rotate90"; "isButtonEnabled"].
Proof.
  eexists; split; [apply lookup_singleton_eq |].
  repeat (split; [by simplify_map_eq |]).
  intros k [v Hk].
  repeat (apply lookup_insert_Some in Hk as [[<- _] | [_ Hk]]; [set_solver |]).
  apply lookup_singleton_Some in Hk as [<- _]; set_solver.
Qed.

(** ** Further properties of the settings migration *)

Section MigrationMore.

Variable webcam_setting : string → value.

(** The migration on an integer version, in closed form. *)
Lemma on_settings_migrate_Some (target c : Z) (w : world) :
  on_settings_migrate webcam_setting target (Some c) w =
    if bool_decide (c < 3)%Z
    then (Ok tt,
          {| multicam_profiles :=
               (λ p, migrate_to_3 webcam_setting
                       (if bool_decide (c < 2)%Z then migrate_to_2 webcam_setting p else p))
                 <$> multicam_profiles w;
             events :=
               events w ++ [LogDebug "Settings Migration Needed! Resetting to defaults!"] |})
    else (Ok tt, w).
Proof.
  unfold on_settings_migrate, bind, lift, ret, logger_debug, emit,
    settings_get_profiles, settings_set_profiles, py_lt, get_settings_version.
  destruct (decide (c < 3)%Z) as [Hc3 | Hc3];
    [rewrite !(bool_decide_eq_true_2 _ Hc3) | by rewrite !(bool_decide_eq_false_2 _ Hc3)].
  destruct (decide (c < 2)%Z) as [Hc2 | Hc2];
    [rewrite !(bool_decide_eq_true_2 _ Hc2) | by rewrite !(bool_decide_eq_false_2 _ Hc2)].
  cbn. by rewrite <- list_fmap_compose.
Qed.

(** The "Migrate to 3" step changes the key [streamRatio] only. *)
Lemma migrate_to_3_fields (profile : gmap string value) :
  migrate_to_3 webcam_setting profile !! "streamRatio" = Some (webcam_setting "streamRatio")
  ∧ ∀ k, k ≠ "streamRatio" → migrate_to_3 webcam_setting profile !! k = profile !! k.
Proof.
  unfold migrate_to_3; split; [by simplify_map_eq |].
  intros k Hk. by rewrite lookup_insert_ne.
Qed.

(** Applying the steps of one version a second time changes nothing. *)
Lemma migrate_steps_idempotent (b : bool) (profile : gmap string value) :
  let step p := migrate_to_3 webcam_setting (if b then migrate_to_2 webcam_setting p else p) in
  step (step profile) = step profile.
Proof.
  cbn zeta. apply map_eq; intros k.
  destruct b; unfold migrate_to_3, migrate_to_2;
    rewrite !lookup_insert; repeat case_decide; reflexivity.
Qed.

(** X1: for every integer version at or above 3 (not only 3 itself) the
    migration returns normally and leaves the stored list and the log
    untouched. *)
Theorem on_settings_migrate_up_to_date_noop (target c : Z) (w : world) :
  (3 ≤ c)%Z →
  on_settings_migrate webcam_setting target (Some c) w = (Ok tt, w).
Proof.
  intros Hc. rewrite on_settings_migrate_Some.
  rewrite bool_decide_eq_false_2 by lia. reflexivity.
Qed.

(** X2: started from version 2 the migration completes and stores as many
    profiles as before; in each of them [streamRatio] holds the legacy
    value and every other key, [snapshot], [flipH], [flipV] and [rotate90]
    included, has the value it had. *)
Theorem on_settings_migrate_from_2_only_streamRatio (target : Z) (w : world) :
  let run := on_settings_migrate webcam_setting target (Some 2%Z) w in
  run.1 = Ok tt
  ∧ length (multicam_profiles run.2) = length (multicam_profiles w)
  ∧ ∀ i p, multicam_profiles w !! i = Some p →
      ∃ p', multicam_profiles run.2 !! i = Some p'
        ∧ p' !! "streamRatio" = Some (webcam_setting "streamRatio")
        ∧ ∀ k, k ≠ "streamRatio" → p' !! k = p !! k.
Proof.
  cbn zeta. rewrite on_settings_migrate_Some.
  rewrite bool_decide_eq_true_2 by lia. cbn.
  split; [reflexivity |]. split; [by rewrite length_fmap |].
  intros i p Hi. eexists. split.
  - rewrite list_lookup_fmap, Hi. reflexivity.
  - rewrite bool_decide_eq_false_2 by lia. apply migrate_to_3_fields.
Qed.

(** X3: started from any integer version below 2 (0 and negative numbers
    included) the migration completes; the profile at each position now
    holds the legacy values under [snapshot], [flipH], [flipV], [rotate90]
    and [streamRatio], and every other key ([name], [URL], ...) is as it
    was. *)
Theorem on_settings_migrate_below_2_overwrites_five (target c : Z) (w : world) :
  (c < 2)%Z →
  let run := on_settings_migrate webcam_setting target (Some c) w in
  run.1 = Ok tt
  ∧ ∀ i p, multicam_profiles w !! i = Some p →
      ∃ p', multicam_profiles run.2 !! i = Some p'
        ∧ p' !! "snapshot" = Some (webcam_setting "snapshot")
        ∧ p' !! "flipH" = Some (webcam_setting "flipH")
        ∧ p' !! "flipV" = Some (webcam_setting "flipV")
        ∧ p' !! "rotate90" = Some (webcam_setting "rotate90")
        ∧ p' !! "streamRatio" = Some (webcam_setting "streamRatio")
        ∧ ∀ k, k ∉ ["snapshot"; "flipH"; "flipV"; "rotate90"; "streamRatio"] →
               p' !! k = p !! k.
Proof.
  intros Hc. cbn zeta. rewrite on_settings_migrate_Some.
  rewrite bool_decide_eq_true_2 by lia. cbn.
  split; [reflexivity |].
  intros i p Hi. eexists. split.
  - rewrite list_lookup_fmap, Hi. reflexivity.
  - rewrite bool_decide_eq_true_2 by lia. apply migrate_to_3_to_2_fields.
Qed.

(** X4: whatever the version, a migration that returns normally stores a
    list of the same length as the one it read, so an empty list stays
    empty and the default profile is never installed; position by position
    the keys outside the five migrated ones keep their values. *)
Theorem on_settings_migrate_keeps_shape
    (target : Z) (current : option Z) (w w' : world) :
  on_settings_migrate webcam_setting target current w = (Ok tt, w') →
  length (multicam_profiles w') = length (multicam_profiles w)
  ∧ (multicam_profiles w = [] → multicam_profiles w' = [])
  ∧ ∀ i p, multicam_profiles w !! i = Some p →
      ∃ p', multicam_profiles w' !! i = Some p'
        ∧ ∀ k, k ∉ ["snapshot"; "flipH"; "flipV"; "rotate90"; "streamRatio"] →
               p' !! k = p !! k.
Proof.
  intros Hrun.
  destruct current as [c |]; [| discriminate Hrun].
  rewrite on_settings_migrate_Some in Hrun.
  case_bool_decide as Hc3; injection Hrun as <-; cbn.
  - split; [by rewrite length_fmap |].
    split; [by intros -> |].
    intros i p Hi. eexists. split.
    + rewrite list_lookup_fmap, Hi. reflexivity.
    + intros k Hk. case_bool_decide.
      * by apply migrate_to_3_to_2_fields.
      * apply migrate_to_3_fields. intros ->. apply Hk. set_solver.
  - split; [reflexivity |]. split; [done |]. eauto.
Qed.

(** X5: migrating again from the same version does not change what is
    stored: the list after two runs is the list after one run (for [None]
    both runs raise and the list is the original one). *)
Theorem on_settings_migrate_twice_same_profiles
    (target : Z) (current : option Z) (w : world) :
  let once := (on_settings_migrate webcam_setting target current w).2 in
  let twice := (on_settings_migrate webcam_setting target current once).2 in
  multicam_profiles twice = multicam_profiles once.
Proof.
  cbn zeta. destruct current as [c |]; [| reflexivity].
  rewrite !on_settings_migrate_Some.
  case_bool_decide; [| reflexivity]. cbn.
  rewrite <- list_fmap_compose. apply list_fmap_ext.
  intros i p _. apply (migrate_steps_idempotent (bool_decide (c < 2)%Z)).
Qed.

End MigrationMore.

(** A store already at version 5. *)
Lemma on_settings_migrate_up_to_date_noop_witness :
  let legacy : string → value := λ key, VStr ("legacy " +:+ key) in
  let w := {| multicam_profiles := [ {[ "name" := VStr "Cam1" ]} ]; events := [] |} in
  (3 ≤ 5)%Z ∧ on_settings_migrate legacy 3 (Some 5%Z) w = (Ok tt, w).
Proof.
  intros legacy w.
  assert (Hc : (3 ≤ 5)%Z) by lia.
  split; [exact Hc |].
  exact (on_settings_migrate_up_to_date_noop legacy 3 5 w Hc).
Defined.

(** A store at version 0 holding one profile. *)
Lemma on_settings_migrate_below_2_overwrites_five_witness :
  let legacy : string → value := λ key, VStr ("legacy " +:+ key) in
  let w := {| multicam_profiles :=
                [ {[ "name" := VStr "Cam1"; "snapshot" := VStr "http://x/snap.jpg" ]} ];
              events := [] |} in
  let run := on_settings_migrate legacy 3 (Some 0%Z) w in
  (0 < 2)%Z
  ∧ run.1 = Ok tt
  ∧ ∀ i p, multicam_profiles w !! i = Some p →
      ∃ p', multicam_profiles run.2 !! i = Some p'
        ∧ p' !! "snapshot" = Some (legacy "snapshot")
        ∧ p' !! "flipH" = Some (legacy "flipH")
        ∧ p' !! "flipV" = Some (legacy "flipV")
        ∧ p' !! "rotate90" = Some (legacy "rotate90")
        ∧ p' !! "streamRatio" = Some (legacy "streamRatio")
        ∧ ∀ k, k ∉ ["snapshot"; "flipH"; "flipV"; "rotate90"; "streamRatio"] →
               p' !! k = p !! k.
Proof.
  intros legacy w run.
  assert (Hc : (0 < 2)%Z) by lia.
  split; [exact Hc |].
  exact (on_settings_migrate_below_2_overwrites_five legacy 3 0 w Hc).
Defined.

(** A run from version 2 on an empty store. *)
Lemma on_settings_migrate_keeps_shape_witness :
  let legacy : string → value := λ key, VStr ("legacy " +:+ key) in
  let w := {| multicam_profiles := []; events := [] |} in
  let w' := (on_settings_migrate legacy 3 (Some 2%Z) w).2 in
  on_settings_migrate legacy 3 (Some 2%Z) w = (Ok tt, w')
  ∧ length (multicam_profiles w') = length (multicam_profiles w)
  ∧ (multicam_profiles w = [] → multicam_profiles w' = [])
  ∧ ∀ i p, multicam_profiles w !! i = Some p →
      ∃ p', multicam_profiles w' !! i = Some p'
        ∧ ∀ k, k ∉ ["snapshot"; "flipH"; "flipV"; "rotate90"; "streamRatio"] →
               p' !! k = p !! k.
Proof.
  intros legacy w w'.
  assert (Hrun : on_settings_migrate legacy 3 (Some 2%Z) w = (Ok tt, w')) by reflexivity.
  split; [exact Hrun |].
  exact (on_settings_migrate_keeps_shape legacy 3 (Some 2%Z) w w' Hrun).
Defined.

(** ** Further properties of the descriptor translator *)

(** [a or dflt] is never [None] when [dflt] is not, and is truthy when
    [dflt] is. *)
Lemma py_or_not_None (v dflt : value) : dflt ≠ VNone → py_or v dflt ≠ VNone.
Proof.
  unfold py_or. intros Hd. destruct (truthy v) eqn:Hv; [| exact Hd].
  intros ->. discriminate Hv.
Qed.

Lemma py_or_truthy (v dflt : value) : truthy dflt = true → truthy (py_or v dflt) = true.
Proof. unfold py_or. intros Hd. by destruct (truthy v) eqn:Hv. Qed.

Lemma py_or_falsy (v dflt : value) : truthy v = false → py_or v dflt = dflt.
Proof. unfold py_or. by intros ->. Qed.

Lemma py_or_keep (v dflt : value) : truthy v = true → py_or v dflt = v.
Proof. unfold py_or. by intros ->. Qed.

(** X6: in the descriptor of a profile dictionary, a field that is missing
    or holds a falsy value ([None], [False], [0] or the empty string) is
    replaced by its default: [False] for the three orientation flags, the
    empty string for the stream URL, ["4:3"] for the ratio and ["default"]
    for the name, which also gives the identifier ["multicam/default"]. *)
Theorem profile_to_webcam_defaults (self : MultiCamPlugin) (d : gmap string value) :
  let unset k := truthy (default VNone (d !! k)) = false in
  ∃ cam, profile_to_webcam self (ODict d) = Ok cam
    ∧ (unset "flipH" → Webcam.flipH cam = VBool false)
    ∧ (unset "flipV" → Webcam.flipV cam = VBool false)
    ∧ (unset "rotate90" → Webcam.rotate90 cam = VBool false)
    ∧ (unset "URL" →
         WebcamCompatibility.stream (Webcam.compat cam) = VStr ""
         ∧ Webcam.extras cam !! "stream" = Some (VStr ""))
    ∧ (unset "streamRatio" →
         WebcamCompatibility.streamRatio (Webcam.compat cam) = VStr "4:3"
         ∧ Webcam.extras cam !! "streamRatio" = Some (VStr "4:3"))
    ∧ (unset "name" →
         Webcam.displayName cam = VStr "default"
         ∧ Webcam.name cam = "multicam/default").
Proof.
  cbn zeta. eexists; split; [apply profile_to_webcam_dict |]; cbn.
  repeat match goal with |- _ ∧ _ => split end;
    intros Hk; rewrite ?(py_or_falsy _ _ Hk); try split; by simplify_map_eq.
Qed.

(** X7: a flag stored as [True], a stream URL stored as a non-empty string
    and a name stored as a non-empty string are carried into the descriptor
    as they are, and the identifier is ["multicam/"] followed by that
    name. *)
Theorem profile_to_webcam_keeps_set_fields (self : MultiCamPlugin) (d : gmap string value) :
  ∃ cam, profile_to_webcam self (ODict d) = Ok cam
    ∧ (d !! "flipH" = Some (VBool true) → Webcam.flipH cam = VBool true)
    ∧ (d !! "flipV" = Some (VBool true) → Webcam.flipV cam = VBool true)
    ∧ (d !! "rotate90" = Some (VBool true) → Webcam.rotate90 cam = VBool true)
    ∧ (∀ url, d !! "URL" = Some (VStr url) → url ≠ "" →
         WebcamCompatibility.stream (Webcam.compat cam) = VStr url
         ∧ Webcam.extras cam !! "stream" = Some (VStr url))
    ∧ (∀ name, d !! "name" = Some (VStr name) → name ≠ "" →
         Webcam.displayName cam = VStr name
         ∧ Webcam.name cam = "multicam/" +:+ name).
Proof.
  assert (Hstr : ∀ s, s ≠ "" → truthy (VStr s) = true).
  { intros s Hs. cbn. by rewrite bool_decide_eq_false_2. }
  eexists; split; [apply profile_to_webcam_dict |]; cbn.
  repeat match goal with |- _ ∧ _ => split end.
  - by intros ->.
  - by intros ->.
  - by intros ->.
  - intros url -> Hurl; cbn. rewrite (py_or_keep _ _ (Hstr _ Hurl)).
    split; by simplify_map_eq.
  - intros name -> Hname; cbn. rewrite (py_or_keep _ _ (Hstr _ Hname)).
    split; reflexivity.
Qed.

(** X8: every descriptor built from a profile dictionary is well formed:
    the display name and the ratio are truthy, the flags and the stream URL
    are never [None], the identifier is ["multicam/"] followed by the
    display name, the snapshot URL shown and the one in the compatibility
    block are the same, and the stream URL and ratio in [extras] repeat the
    ones in the compatibility block. *)
Theorem profile_to_webcam_well_formed (self : MultiCamPlugin) (d : gmap string value) :
  ∃ cam, profile_to_webcam self (ODict d) = Ok cam
    ∧ truthy (Webcam.displayName cam) = true
    ∧ truthy (WebcamCompatibility.streamRatio (Webcam.compat cam)) = true
    ∧ Webcam.flipH cam ≠ VNone
    ∧ Webcam.flipV cam ≠ VNone
    ∧ Webcam.rotate90 cam ≠ VNone
    ∧ WebcamCompatibility.stream (Webcam.compat cam) ≠ VNone
    ∧ Webcam.name cam = "multicam/" +:+ py_str (Webcam.displayName cam)
    ∧ WebcamCompatibility.snapshot (Webcam.compat cam) = Webcam.snapshotDisplay cam
    ∧ Webcam.extras cam !! "stream"
      = Some (WebcamCompatibility.stream (Webcam.compat cam))
    ∧ Webcam.extras cam !! "streamRatio"
      = Some (WebcamCompatibility.streamRatio (Webcam.compat cam)).
Proof.
  eexists; split; [apply profile_to_webcam_dict |]; cbn.
  repeat split;
    try (by apply py_or_truthy); try (by apply py_or_not_None); by simplify_map_eq.
Qed.

(** X9: the descriptor depends on the seven keys the function reads and on
    nothing else: two dictionaries that agree on them give the same result,
    so [isButtonEnabled] and unknown keys have no effect. *)
Theorem profile_to_webcam_reads_seven_keys
    (self : MultiCamPlugin) (d1 d2 : gmap string value) :
  (∀ k, k ∈ ["flipH"; "flipV"; "rotate90"; "snapshot"; "URL"; "streamRatio"; "name"] →
        d1 !! k = d2 !! k) →
  profile_to_webcam self (ODict d1) = profile_to_webcam self (ODict d2).
Proof.
  intros Hagree. rewrite !profile_to_webcam_dict; cbn zeta.
  rewrite !Hagree by set_solver. reflexivity.
Qed.

(** A profile with and without the button flag. *)
Lemma profile_to_webcam_reads_seven_keys_witness :
  let d1 : gmap string value := {[ "name" := VStr "Cam1" ]} in
  let d2 : gmap string value :=
    {[ "name" := VStr "Cam1"; "isButtonEnabled" := VStr "true" ]} in
  (∀ k, k ∈ ["flipH"; "flipV"; "rotate90"; "snapshot"; "URL"; "streamRatio"; "name"] →
        d1 !! k = d2 !! k)
  ∧ profile_to_webcam __init__ (ODict d1) = profile_to_webcam __init__ (ODict d2).
Proof.
  intros d1 d2.
  assert (Hagree : ∀ k,
            k ∈ ["flipH"; "flipV"; "rotate90"; "snapshot"; "URL"; "streamRatio"; "name"] →
            d1 !! k = d2 !! k).
  { intros k Hk.
    repeat (apply elem_of_cons in Hk as [-> | Hk]; [reflexivity |]).
    by apply elem_of_nil in Hk. }
  split; [exact Hagree |].
  exact (profile_to_webcam_reads_seven_keys __init__ d1 d2 Hagree).
Defined.

(** X10: after a migration from a version below 2 every stored profile
    yields a descriptor whose snapshot URL, [canSnapshot], orientation flags
    and ratio are computed from the host's legacy settings alone: whatever
    the profiles held in those fields before is gone, and all descriptors
    agree on them. *)
Theorem migrated_profiles_descriptor_from_legacy
    (webcam_setting : string → value) (self : MultiCamPlugin)
    (target c : Z) (w : world) :
  (c < 2)%Z →
  ∀ p', p' ∈ multicam_profiles (on_settings_migrate webcam_setting target (Some c) w).2 →
    ∃ cam, profile_to_webcam self (ODict p') = Ok cam
      ∧ Webcam.snapshotDisplay cam = webcam_setting "snapshot"
      ∧ Webcam.canSnapshot cam
        = negb (bool_decide (webcam_setting "snapshot" = VStr ""))
          && negb (bool_decide (webcam_setting "snapshot" = VNone))
      ∧ Webcam.flipH cam = py_or (webcam_setting "flipH") (VBool false)
      ∧ Webcam.flipV cam = py_or (webcam_setting "flipV") (VBool false)
      ∧ Webcam.rotate90 cam = py_or (webcam_setting "rotate90") (VBool false)
      ∧ WebcamCompatibility.streamRatio (Webcam.compat cam)
        = py_or (webcam_setting "streamRatio") (VStr "4:3").
Proof.
  intros Hc p'. rewrite on_settings_migrate_Some.
  rewrite bool_decide_eq_true_2 by lia. cbn.
  rewrite bool_decide_eq_true_2 by lia.
  intros (p & -> & _)%list_elem_of_fmap.
  destruct (migrate_to_3_to_2_fields webcam_setting p)
    as (Hsnap & HflipH & HflipV & Hrot & Hratio & _).
  eexists; split; [apply profile_to_webcam_dict |]; cbn.
  rewrite Hsnap, HflipH, HflipV, Hrot, Hratio. repeat split.
Qed.

(** Two cameras with their own snapshot URLs, migrated from version 1. *)
Lemma migrated_profiles_descriptor_from_legacy_witness :
  let legacy : string → value := λ key, VStr ("legacy " +:+ key) in
  let w := {| multicam_profiles :=
                [ {[ "name" := VStr "A"; "snapshot" := VStr "http://a/snap" ]};
                  {[ "name" := VStr "B"; "snapshot" := VStr "http://b/snap" ]} ];
              events := [] |} in
  (1 < 2)%Z
  ∧ ∀ p', p' ∈ multicam_profiles (on_settings_migrate legacy 3 (Some 1%Z) w).2 →
      ∃ cam, profile_to_webcam __init__ (ODict p') = Ok cam
        ∧ Webcam.snapshotDisplay cam = legacy "snapshot"
        ∧ Webcam.canSnapshot cam
          = negb (bool_decide (legacy "snapshot" = VStr ""))
            && negb (bool_decide (legacy "snapshot" = VNone))
        ∧ Webcam.flipH cam = py_or (legacy "flipH") (VBool false)
        ∧ Webcam.flipV cam = py_or (legacy "flipV") (VBool false)
        ∧ Webcam.rotate90 cam = py_or (legacy "rotate90") (VBool false)
        ∧ WebcamCompatibility.streamRatio (Webcam.compat cam)
          = py_or (legacy "streamRatio") (VStr "4:3").
Proof.
  intros legacy w.
  assert (Hc : (1 < 2)%Z) by lia.
  split; [exact Hc |].
  exact (migrated_profiles_descriptor_from_legacy legacy __init__ 3 1 w Hc).
Defined.

(** X11: the descriptor of the default profile: its identifier is
    ["multicam/Default"], its stream URL, snapshot URL, flags and ratio are
    the legacy settings put through the same defaulting as any other
    profile, and the [isButtonEnabled] entry plays no part. *)
Theorem default_profile_descriptor
    (webcam_setting : string → value) (self : MultiCamPlugin) :
  ∃ p cam,
    py_getitem (get_settings_defaults webcam_setting) "multicam_profiles" = Ok [p]
    ∧ profile_to_webcam self (ODict p) = Ok cam
    ∧ Webcam.name cam = "multicam/Default"
    ∧ Webcam.displayName cam = VStr "Default"
    ∧ WebcamCompatibility.stream (Webcam.compat cam)
      = py_or (webcam_setting "stream") (VStr "")
    ∧ Webcam.snapshotDisplay cam = webcam_setting "snapshot"
    ∧ Webcam.flipH cam = py_or (webcam_setting "flipH") (VBool false)
    ∧ Webcam.flipV cam = py_or (webcam_setting "flipV") (VBool false)
    ∧ Webcam.rotate90 cam = py_or (webcam_setting "rotate90") (VBool false)
    ∧ WebcamCompatibility.streamRatio (Webcam.compat cam)
      = py_or (webcam_setting "streamRatio") (VStr "4:3").
Proof.
  eexists _, _. split; [reflexivity |].
  split; [apply profile_to_webcam_dict |].
  repeat split.
Qed.

(** ** Properties of the template manifest and of the registration *)

(** X12: listing the templates never changes the settings or the log; on an
    empty profile list it returns the settings panel alone, and on any
    other list it raises the [AttributeError] of the descriptor translator,
    so no webcam panel is ever listed. *)
Theorem get_template_configs_outcome (self : MultiCamPlugin) (w : world) :
  let run := get_template_configs self w in
  run.2 = w
  ∧ (multicam_profiles w = [] →
       run.1 = Ok [ {[ "type" := VStr "settings";
                       "template" := VStr "multicam_settings.jinja2";
                       "custom_bindings" := VBool true ]} ])
  ∧ (multicam_profiles w ≠ [] → run.1 = Raise AttributeError).
Proof.
  destruct w as [[| p ps] evs]; cbn zeta.
  - repeat split. intros H; by destruct H.
  - repeat split. discriminate.
Qed.

(** X13: the load entry point always stores a fresh instance with the
    attributes of [__init__]; it returns normally exactly when the host
    provides an attribute [get_webcam_profiles], in which case the helper
    table holds that attribute and the hook table maps the update check
    hook to the plugin's [get_update_information]; otherwise the helper and
    hook tables are left as they were. *)
Theorem plugin_load_outcome (host_attrs : list string) (g : globals) :
  let run := __plugin_load__ host_attrs g in
  __plugin_implementation__ run.2 = Some __init__
  ∧ (run.1 = Ok tt ↔ "get_webcam_profiles" ∈ host_attrs)
  ∧ (run.1 = Ok tt →
       __plugin_helpers__ run.2
       = Some {[ "get_webcam_profiles" := OHost "get_webcam_profiles" ]}
       ∧ __plugin_hooks__ run.2
         = Some {[ "octoprint.plugin.softwareupdate.check_config"
                     := OMethod "get_update_information" ]})
  ∧ (run.1 ≠ Ok tt →
       __plugin_helpers__ run.2 = __plugin_helpers__ g
       ∧ __plugin_hooks__ run.2 = __plugin_hooks__ g).
Proof.
  cbn zeta. destruct (decide ("get_webcam_profiles" ∈ host_attrs)) as [Hin | Hout].
  - assert (Hattr : self_getattr host_attrs __init__ "get_webcam_profiles"
                    = Ok (OHost "get_webcam_profiles")).
    { unfold self_getattr. rewrite (bool_decide_eq_true_2 _ Hin). reflexivity. }
    unfold __plugin_load__. rewrite Hattr. cbn.
    repeat split; try done.
  - unfold __plugin_load__.
    rewrite (self_getattr_get_webcam_profiles _ _ Hout). cbn.
    repeat split; try done.
Qed.
